(** * The dice service of [main.go]: handlers, routing and process lifecycle

    A shallow embedding of [main.go].  Go functions with effects become
    computations in a small state-and-outcome monad over a [World] that
    records every observable effect in a chronological [trace]: spans,
    log records, counter increments, writes to a response writer, lines of
    the standard logger and the lifecycle calls of [run].  Library calls
    (net/http, math/rand, the OpenTelemetry API) are modelled by their
    documented contracts; what the outside decides (random draws, whether a
    write fails, which [select] case fires) is read from the [World]. *)

From Stdlib Require Import ZArith List String Ascii Bool Lia.
Import ListNotations.

Open Scope string_scope.
Open Scope Z_scope.

(** ** Strings and [strconv.Itoa] *)

(** The one-character string Go writes as a backslash followed by n. *)
Definition LF : string := String "010"%char EmptyString.

Definition digit_char (d : Z) : ascii := ascii_of_nat (48 + Z.to_nat d).

(** Decimal digits of a non-negative integer, most significant first.  At
    most [fuel + 1] digits are produced. *)
Fixpoint format_uint (fuel : nat) (n : Z) (acc : string) : string :=
  let acc' := String (digit_char (n mod 10)) acc in
  match fuel with
  | O => acc'
  | S fuel' => if n / 10 =? 0 then acc' else format_uint fuel' (n / 10) acc'
  end.

(** [strconv.Itoa]: a minus sign for negative values, no leading zero, "0"
    for zero.  A number [n >= 1] has at most [log2 n + 1] decimal digits. *)
Definition Itoa (i : Z) : string :=
  if i <? 0
  then String "-"%char (format_uint (Z.to_nat (Z.log2 (- i))) (- i) "")
  else format_uint (Z.to_nat (Z.log2 i)) i "".

(** Number of occurrences of a character in a string. *)
Fixpoint count_char (c : ascii) (s : string) : nat :=
  match s with
  | EmptyString => O
  | String d s' => ((if Ascii.eqb c d then 1 else 0) + count_char c s')%nat
  end.

Definition first_char (s : string) : option ascii :=
  match s with
  | EmptyString => None
  | String c _ => Some c
  end.

Definition is_digit (c : ascii) : bool :=
  ((48 <=? nat_of_ascii c) && (nat_of_ascii c <=? 57))%nat.

Fixpoint all_digits (s : string) : bool :=
  match s with
  | EmptyString => true
  | String c s' => is_digit c && all_digits s'
  end.

(** ** Errors and [errors.Join] *)

#[warnings="-register-all"]
Inductive error : Type :=
| errorString (msg : string)
| joinError (errs : list error).

(** The [Error()] method; a joined error prints its parts one per line. *)
Fixpoint Error (e : error) : string :=
  match e with
  | errorString msg => msg
  | joinError errs =>
      (fix join (es : list error) : string :=
         match es with
         | [] => ""
         | [e1] => Error e1
         | e1 :: rest => Error e1 ++ LF ++ join rest
         end) errs
  end.

(** Go's [error] values may be nil. *)
Definition goerror : Type := option error.

Fixpoint non_nil (errs : list goerror) : list error :=
  match errs with
  | [] => []
  | None :: rest => non_nil rest
  | Some e :: rest => e :: non_nil rest
  end.

(** [errors.Join]: nil values are discarded; the result is nil when every
    argument is nil, and otherwise wraps the remaining errors in order. *)
Definition errors_Join (errs : list goerror) : goerror :=
  match non_nil errs with
  | [] => None
  | es => Some (joinError es)
  end.

(** ** Telemetry values *)

Inductive Value : Type :=
| IntValue (i : Z)
| StringValue (s : string).

Definition KeyValue : Type := (string * Value)%type.

(** [attribute.Int] *)
Definition attribute_Int (k : string) (v : Z) : KeyValue := (k, IntValue v).

Definition SpanID : Type := nat.

(** A [context.Context], reduced to what the handlers read from it: the
    span that is current in it, if any. *)
Record Context : Type := mkContext { ctx_span : option SpanID }.

Definition context_Background : Context := mkContext None.

(** [metric.Int64Counter]: the instrument as created in [init]. *)
Record Int64Counter : Type := mkCounter {
  inst_name : string;
  inst_description : string;
  inst_unit : string
}.

(** ** Response writers and requests *)

(** What the next call of [Write] on a response writer does: accept
    everything, accept [n] bytes and return an error, or panic. *)
Inductive WriteOutcome : Type :=
| WriteOk
| WriteErr (n : nat) (e : error)
| WritePanic (v : string).

Record ResponseWriter : Type := mkResponseWriter {
  rw_status : option Z;          (* status line, once written *)
  rw_body : string;              (* bytes accepted so far *)
  rw_script : list WriteOutcome  (* outcomes of the coming Write calls;
                                    every call succeeds once it is used up *)
}.

(** A handle on a response writer (the interface value [w]). *)
Definition Writer : Type := nat.

Record Request : Type := mkRequest {
  Method : string;
  URL_Path : string;
  URL_RawQuery : string;
  pat_values : list (string * string);  (* wildcard matches set by the mux *)
  req_ctx : Context
}.

Fixpoint lookup (k : string) (kvs : list (string * string)) : option string :=
  match kvs with
  | [] => None
  | (k', v) :: rest => if String.eqb k k' then Some v else lookup k rest
  end.

(** [r.PathValue(name)]: the value of the named wildcard of the pattern
    that matched the request, or the empty string when there is none. *)
Definition PathValue (r : Request) (name : string) : string :=
  match lookup name (pat_values r) with
  | Some v => v
  | None => ""
  end.

Definition WithContext (r : Request) (ctx : Context) : Request :=
  mkRequest (Method r) (URL_Path r) (URL_RawQuery r) (pat_values r) ctx.

(** What the mux does to a request it has matched: the wildcard matches
    of the pattern come first, values set earlier with [SetPathValue] stay
    behind them. *)
Definition SetPathValues (r : Request) (vs : list (string * string)) : Request :=
  mkRequest (Method r) (URL_Path r) (URL_RawQuery r) (vs ++ pat_values r) (req_ctx r).

(** ** Observable effects and the world *)

(** What the main goroutine of [run] wakes up on in its [select]. *)
Inductive Wakeup : Type :=
| ServerFault (e : error)   (* [ListenAndServe] returned; its error is never nil *)
| Interrupt.                (* the signal context is done *)

Inductive Event : Type :=
| SpanStart (id : SpanID) (parent : option SpanID) (name : string)
| SpanSetAttributes (id : SpanID) (attrs : list KeyValue)
| SpanEnd (id : SpanID)
| LogInfo (span : option SpanID) (msg : string) (fields : list KeyValue)
| CounterAdd (inst : Int64Counter) (incr : Z) (attrs : list KeyValue)
| BodyWrite (w : Writer) (data : string) (res : WriteOutcome)
| StdLog (line : string)
| SignalNotify
| SignalStop
| SetupOTelSDK (err : goerror)
| DefaultMuxHandle (pattern : string)
| ServerCreated (addr : string)
| GoListenAndServe
| SrvShutdown (err : goerror)
| OtelShutdown (err : goerror).

Record World : Type := mkWorld {
  trace : list Event;                 (* oldest first *)
  next_span : SpanID;
  rand_draws : nat -> N;              (* the draws of the global source *)
  rand_pos : nat;
  writers : Writer -> ResponseWriter;
  otel_setup_err : goerror;           (* what [setupOTelSDK] will return *)
  otel_shutdown_err : goerror;        (* what the bundle's shutdown will return *)
  srv_shutdown_err : goerror;         (* what [srv.Shutdown] will return *)
  wakeup : Wakeup
}.

Definition set_trace (t : list Event) (s : World) : World :=
  mkWorld t (next_span s) (rand_draws s) (rand_pos s) (writers s)
          (otel_setup_err s) (otel_shutdown_err s) (srv_shutdown_err s) (wakeup s).

Definition set_next_span (n : SpanID) (s : World) : World :=
  mkWorld (trace s) n (rand_draws s) (rand_pos s) (writers s)
          (otel_setup_err s) (otel_shutdown_err s) (srv_shutdown_err s) (wakeup s).

Definition set_rand_pos (p : nat) (s : World) : World :=
  mkWorld (trace s) (next_span s) (rand_draws s) p (writers s)
          (otel_setup_err s) (otel_shutdown_err s) (srv_shutdown_err s) (wakeup s).

Definition set_writers (ws : Writer -> ResponseWriter) (s : World) : World :=
  mkWorld (trace s) (next_span s) (rand_draws s) (rand_pos s) ws
          (otel_setup_err s) (otel_shutdown_err s) (srv_shutdown_err s) (wakeup s).

Definition update_writer (w : Writer) (rw : ResponseWriter)
    (ws : Writer -> ResponseWriter) : Writer -> ResponseWriter :=
  fun w' => if Nat.eqb w' w then rw else ws w'.

(** ** The monad of Go function bodies *)

(** How a function body ends: it returns, it panics, or the process exits
    ([os.Exit], reached through [log.Fatalf]). *)
Inductive Outcome (A : Type) : Type :=
| Ret (a : A)
| Panic (v : string)
| Exit (code : Z).

Arguments Ret {A} a.
Arguments Panic {A} v.
Arguments Exit {A} code.

Definition M (A : Type) : Type := World -> Outcome A * World.

Definition ret {A} (a : A) : M A := fun s => (Ret a, s).

Definition bind {A B} (m : M A) (k : A -> M B) : M B :=
  fun s =>
    match m s with
    | (Ret a, s') => k a s'
    | (Panic v, s') => (Panic v, s')
    | (Exit c, s') => (Exit c, s')
    end.

Declare Scope go_scope.
Delimit Scope go_scope with go.
Notation "x <- m ;; k" := (bind m (fun x => k))
  (at level 61, m at next level, right associativity) : go_scope.
Notation "' p <- m ;; k" := (bind m (fun x => match x with p => k end))
  (at level 61, p pattern, m at next level, right associativity) : go_scope.
Notation "m ;; k" := (bind m (fun _ => k))
  (at level 61, right associativity) : go_scope.
Open Scope go_scope.

(** [defer d] followed by the rest of the body: [d] runs when the body
    returns and also when it panics (the panic then goes on, unless [d]
    itself panics or exits); it does not run when the process exits. *)
Definition defer {A} (d : M unit) (body : M A) : M A :=
  fun s =>
    match body s with
    | (Ret a, s') =>
        match d s' with
        | (Ret _, s'') => (Ret a, s'')
        | (Panic v, s'') => (Panic v, s'')
        | (Exit c, s'') => (Exit c, s'')
        end
    | (Panic v, s') =>
        match d s' with
        | (Ret _, s'') => (Panic v, s'')
        | (Panic v', s'') => (Panic v', s'')
        | (Exit c, s'') => (Exit c, s'')
        end
    | (Exit c, s') => (Exit c, s')
    end.

(** A deferred closure that reads and assigns the named result [err]: on a
    normal return it maps the value being returned to the one the caller
    sees.  On a panic it runs on the value [err] holds at that point. *)
Definition defer_named (d : goerror -> M goerror) (at_panic : goerror)
    (body : M goerror) : M goerror :=
  fun s =>
    match body s with
    | (Ret err, s') => d err s'
    | (Panic v, s') =>
        match d at_panic s' with
        | (Ret _, s'') => (Panic v, s'')
        | (Panic v', s'') => (Panic v', s'')
        | (Exit c, s'') => (Exit c, s'')
        end
    | (Exit c, s') => (Exit c, s')
    end.

Definition emit (e : Event) : M unit :=
  fun s => (Ret tt, set_trace (trace s ++ [e]) s).

Definition panic {A} (v : string) : M A := fun s => (Panic v, s).

(** The events a computation adds to the trace when run from [s]. *)
Definition events_of {A} (m : M A) (s : World) : list Event :=
  skipn (List.length (trace s)) (trace (snd (m s))).

Definition outcome_of {A} (m : M A) (s : World) : Outcome A := fst (m s).

(** ** Library calls *)

(** [tracer.Start(ctx, name)]: a new span, child of the span current in
    [ctx], and the context in which the new span is current. *)
Definition tracer_Start (ctx : Context) (name : string) : M (Context * SpanID) :=
  fun s =>
    let id := next_span s in
    (Ret (mkContext (Some id), id),
     set_next_span (S id) (set_trace (trace s ++ [SpanStart id (ctx_span ctx) name]) s)).

Definition span_End (span : SpanID) : M unit := emit (SpanEnd span).

Definition span_SetAttributes (span : SpanID) (attrs : list KeyValue) : M unit :=
  emit (SpanSetAttributes span attrs).

(** [logger.InfoContext(ctx, msg, args...)] of the otelslog logger: the
    record carries the span of [ctx]. *)
Definition logger_InfoContext (ctx : Context) (msg : string)
    (fields : list KeyValue) : M unit :=
  emit (LogInfo (ctx_span ctx) msg fields).

(** [c.Add(ctx, incr, metric.WithAttributes(attrs...))] *)
Definition Int64Counter_Add (c : Int64Counter) (ctx : Context) (incr : Z)
    (attrs : list KeyValue) : M unit :=
  emit (CounterAdd c incr attrs).

(** [rand.Intn(n)]: panics for [n <= 0]; otherwise reduces the draw it
    accepts from the global source modulo [n]. *)
Definition rand_Intn (n : Z) : M Z :=
  fun s =>
    if n <=? 0 then panic "invalid argument to Intn" s
    else (Ret (Z.of_N (rand_draws s (rand_pos s)) mod n), set_rand_pos (S (rand_pos s)) s).

(** The part of [data] a writer keeps, given the outcome of the write. *)
Definition accepted_part (res : WriteOutcome) (data : string) : string :=
  match res with
  | WriteOk => data
  | WriteErr n _ => substring 0 (Nat.min n (String.length data)) data
  | WritePanic _ => ""
  end.

(** [w.Write(data)] on a response writer.  A first write sends the header
    with status 200.  On success all of [data] is accepted; on failure the
    writer keeps the first [n] bytes and returns the error. *)
Definition ResponseWriter_Write (w : Writer) (data : string) : M (nat * goerror) :=
  fun s =>
    let rw := writers s w in
    let status := match rw_status rw with
                  | None => Some 200
                  | Some c => Some c
                  end in
    let res := hd WriteOk (rw_script rw) in
    let s1 := set_trace (trace s ++ [BodyWrite w data res]) s in
    let s2 := set_writers (update_writer w
                (mkResponseWriter status (rw_body rw ++ accepted_part res data)
                                  (tl (rw_script rw))) (writers s)) s1 in
    match res with
    | WriteOk => (Ret (String.length data, None), s2)
    | WriteErr n e => (Ret (Nat.min n (String.length data), Some e), s2)
    | WritePanic v => (Panic v, s2)
    end.

(** [io.WriteString(w, s)] *)
Definition io_WriteString (w : Writer) (data : string) : M (nat * goerror) :=
  ResponseWriter_Write w data.

(** [fmt.Fprint(w, s)] for one string operand. *)
Definition fmt_Fprint (w : Writer) (data : string) : M (nat * goerror) :=
  ResponseWriter_Write w data.

Definition has_suffix_LF (s : string) : bool :=
  match String.length s with
  | O => false
  | S n => String.eqb (substring n 1 s) LF
  end.

(** Output of the standard logger: one line per call, a newline being
    added when the text does not end in one.  The date and time prefix is
    left out. *)
Definition log_line (text : string) : string :=
  if has_suffix_LF text then text else text ++ LF.

Definition log_Output (text : string) : M unit := emit (StdLog (log_line text)).

Definition log_Printf (text : string) : M unit := log_Output text.
Definition log_Println (text : string) : M unit := log_Output (text ++ LF).

(** [log.Fatalf]: the line is logged, then [os.Exit(1)]. *)
Definition log_Fatalf {A} (text : string) : M A :=
  fun s => (Exit 1, snd (log_Output text s)).

(** ** The handlers *)

(** The instrument [init] creates; [init] panics if the meter refuses it. *)
Definition rollCnt : Int64Counter :=
  mkCounter "dice.rolls" "The total number of dice rolls" "{roll}".

Definition Handler : Type := Writer -> Request -> M unit.

Definition hello : Handler :=
  fun w r => log_Println "Hola, Mundo!".

Definition dice : Handler :=
  fun w r =>
    '(ctx, span) <- tracer_Start (req_ctx r) "roll" ;;
    defer (span_End span) (
      n <- rand_Intn 6 ;;
      let roll := 1 + n in
      let player := PathValue r "player" in
      let msg := if negb (String.eqb player "")
                 then player ++ " is rolling the dice"
                 else "Anonymous player is rolling the dice" in
      logger_InfoContext ctx msg [("result", IntValue roll)] ;;
      let rollValueAttr := attribute_Int "roll.value" roll in
      span_SetAttributes span [rollValueAttr] ;;
      Int64Counter_Add rollCnt ctx 1 [rollValueAttr] ;;
      let resp := Itoa roll ++ LF in
      '(_, err) <- io_WriteString w resp ;;
      match err with
      | Some e => log_Printf ("Escritura fallida: " ++ Error e ++ LF)
      | None => ret tt
      end).

(** A world to run examples in: the source draws [d] every time and the
    writers follow [script]. *)
Definition world0 (d : N) (script : list WriteOutcome) : World :=
  mkWorld [] 0%nat (fun _ => d) 0%nat (fun _ => mkResponseWriter None "" script)
          None None None Interrupt.

Definition plain_request (path query : string) : Request :=
  mkRequest "GET" path query [] context_Background.


(** ** Routing: [http.ServeMux] patterns *)

(** The pieces of a path between slashes: "/dice" gives ["", "dice"] and
    "/" gives ["", ""]. *)
Fixpoint split_slash (cur : string) (s : string) : list string :=
  match s with
  | EmptyString => [cur]
  | String c s' =>
      if Ascii.eqb c "/"%char then cur :: split_slash "" s'
      else split_slash (cur ++ String c EmptyString) s'
  end.

Definition segments (path : string) : list string := split_slash "" path.

(** A pattern segment of the form {name} is a wildcard. *)
Definition wildcard_name (seg : string) : option string :=
  let n := String.length seg in
  if (String.eqb (substring 0 1 seg) "{" && String.eqb (substring (n - 1) 1 seg) "}"
      && (2 <=? n)%nat)%bool
  then Some (substring 1 (n - 2) seg)
  else None.

(** Matching the segments of a pattern against those of a path.  A literal
    matches itself, a wildcard matches one non-empty segment and binds it,
    and a pattern ending in a slash matches every path below it.  Method
    and host parts of patterns are not modelled. *)
Fixpoint match_segments (pat path : list string) : option (list (string * string)) :=
  match pat, path with
  | [], [] => Some []
  | [""], _ :: _ => Some []
  | p :: pat', x :: path' =>
      match wildcard_name p with
      | Some name =>
          if String.eqb x "" then None
          else option_map (cons (name, x)) (match_segments pat' path')
      | None =>
          if String.eqb p x then match_segments pat' path' else None
      end
  | _, _ => None
  end.

Definition match_pattern (pattern path : string) : option (list (string * string)) :=
  match_segments (segments pattern) (segments path).

(** Precedence among patterns that match the same path: at the first
    segment where they differ in kind, a literal wins over a wildcard and
    both win over a trailing slash. *)
Fixpoint more_specific (p1 p2 : list string) : bool :=
  match p1, p2 with
  | [""], _ => false
  | _ :: _, [""] => true
  | a :: r1, b :: r2 =>
      match wildcard_name a, wildcard_name b with
      | None, Some _ => true
      | Some _, None => false
      | _, _ => more_specific r1 r2
      end
  | _, _ => false
  end.

Record ServeMux : Type := mkServeMux { routes : list (string * Handler) }.

Definition NewServeMux : ServeMux := mkServeMux [].

(** [mux.Handle(pattern, handler)] *)
Definition ServeMux_Handle (pattern : string) (h : Handler) (mux : ServeMux) : ServeMux :=
  mkServeMux (routes mux ++ [(pattern, h)]).

(** The registered pattern that serves a path, with its handler and the
    wildcard bindings. *)
Fixpoint find_route (rs : list (string * Handler)) (path : string)
    : option (string * Handler * list (string * string)) :=
  match rs with
  | [] => None
  | (pattern, h) :: rest =>
      let later := find_route rest path in
      match match_pattern pattern path with
      | None => later
      | Some vs =>
          match later with
          | Some (pattern', h', vs') =>
              if more_specific (segments pattern') (segments pattern)
              then later else Some (pattern, h, vs)
          | None => Some (pattern, h, vs)
          end
      end
  end.

Definition ResponseWriter_WriteHeader (w : Writer) (code : Z) : M unit :=
  fun s =>
    let rw := writers s w in
    match rw_status rw with
    | Some _ => (Ret tt, s)   (* superfluous call: ignored *)
    | None =>
        (Ret tt, set_writers (update_writer w
           (mkResponseWriter (Some code) (rw_body rw) (rw_script rw)) (writers s)) s)
    end.

(** [http.NotFound] *)
Definition http_NotFound : Handler :=
  fun w r =>
    ResponseWriter_WriteHeader w 404 ;;
    _ <- fmt_Fprint w ("404 page not found" ++ LF) ;;
    ret tt.

(** [mux.ServeHTTP]: the handler of the matching pattern runs on the
    request, which carries the wildcard matches of that pattern. *)
Definition ServeMux_ServeHTTP (mux : ServeMux) : Handler :=
  fun w r =>
    match find_route (routes mux) (URL_Path r) with
    | Some (_, h, vs) => h w (SetPathValues r vs)
    | None => http_NotFound w r
    end.

(** ** The otelhttp wrappers *)

(** [otelhttp.WithRouteTag(route, h)]: the span of the request's context
    gets the attribute http.route, then [h] runs. *)
Definition otelhttp_WithRouteTag (route : string) (h : Handler) : Handler :=
  fun w r =>
    match ctx_span (req_ctx r) with
    | Some span => span_SetAttributes span [("http.route", StringValue route)]
    | None => ret tt
    end ;;
    h w r.

(** [otelhttp.NewHandler(next, operation)]: a server span named after the
    operation surrounds the inner handler, which sees the context of that
    span.  The wrapper's own request metrics are left out. *)
Definition otelhttp_NewHandler (next : Handler) (operation : string) : Handler :=
  fun w r =>
    '(ctx, span) <- tracer_Start (req_ctx r) operation ;;
    defer (span_End span) (next w (WithContext r ctx)).

Definition newHTTPHandler : Handler :=
  let mux := NewServeMux in
  let handleFunc (pattern : string) (f : Handler) (mux : ServeMux) : ServeMux :=
    let handler := otelhttp_WithRouteTag pattern f in
    ServeMux_Handle pattern handler mux in
  let mux := handleFunc "/" hello mux in
  let mux := handleFunc "/dice" dice mux in
  let handler := otelhttp_NewHandler (ServeMux_ServeHTTP mux) "/" in
  handler.

(** ** The server *)

Record Server : Type := mkServer {
  Addr : string;
  ReadTimeout : Z;          (* nanoseconds *)
  WriteTimeout : Z;
  srv_Handler : option Handler
}.

(** The closure [run] registers under "/" with [http.HandleFunc], that is,
    on [http.DefaultServeMux]. *)
Definition root_closure : Handler :=
  fun w r => _ <- fmt_Fprint w "Hola, Mundo!" ;; ret tt.

(** [http.DefaultServeMux] as [run] leaves it. *)
Definition DefaultServeMux : ServeMux :=
  ServeMux_Handle "/" root_closure NewServeMux.

(** The server value [run] builds. *)
Definition srv : Server :=
  mkServer ":8080" 1000000000 (10 * 1000000000) (Some newHTTPHandler).

(** How a server serves one request: its [Handler], or the default mux
    when that is nil; a panic of the handler is recovered and logged (the
    remote address and the stack are left out of the line); when the
    handler returns without a header having been written, status 200 is
    sent. *)
Definition Server_serve (sv : Server) : Handler :=
  fun w r s =>
    let h := match srv_Handler sv with
             | Some h => h
             | None => ServeMux_ServeHTTP DefaultServeMux
             end in
    match h w r s with
    | (Ret _, s') => ResponseWriter_WriteHeader w 200 s'
    | (Panic v, s') => log_Printf ("http: panic serving: " ++ v) s'
    | (Exit c, s') => (Exit c, s')
    end.

(** ** The process lifecycle: [run] and [main] *)

(** [stop()] of [signal.NotifyContext] *)
Definition signal_stop : M unit := emit SignalStop.

(** Modelled from the spec: the composite shutdown function that
    [setupOTelSDK] returns (Section 4.1); its error is the joint error of
    the three providers. *)
Definition otelShutdown (ctx : Context) : M goerror :=
  fun s => (Ret (otel_shutdown_err s),
            set_trace (trace s ++ [OtelShutdown (otel_shutdown_err s)]) s).

(** Modelled from the spec: [setupOTelSDK], whose file is not part of the
    sources at hand.  Section 4.1: initialize(ctx) returns the composite
    shutdown function of the bundle and an error; it fails when a provider
    cannot be constructed. *)
Definition setupOTelSDK (ctx : Context) : M ((Context -> M goerror) * goerror) :=
  fun s => (Ret (otelShutdown, otel_setup_err s),
            set_trace (trace s ++ [SetupOTelSDK (otel_setup_err s)]) s).

(** [http.HandleFunc(pattern, f)]: registration on [DefaultServeMux]. *)
Definition http_HandleFunc (pattern : string) (f : Handler) : M unit :=
  emit (DefaultMuxHandle pattern).

(** [srv.Shutdown(ctx)]: the listener is closed and the call returns once
    the requests in flight are done. *)
Definition Server_Shutdown (sv : Server) (ctx : Context) : M goerror :=
  fun s => (Ret (srv_shutdown_err s),
            set_trace (trace s ++ [SrvShutdown (srv_shutdown_err s)]) s).

(** The [select] of [run]: the case that fires. *)
Definition select_wakeup : M Wakeup := fun s => (Ret (wakeup s), s).

Definition run : M goerror :=
  emit SignalNotify ;;
  defer signal_stop (
    '(otelShutdown, err) <- setupOTelSDK context_Background ;;
    match err with
    | Some e => log_Fatalf ("Fallo al configurar OpenTelemetry SDK: " ++ Error e)
    | None =>
        (* [err] is nil from here up to the [select] *)
        defer_named
          (fun err => e' <- otelShutdown context_Background ;;
                      ret (errors_Join [err; e']))
          None (
          http_HandleFunc "/" root_closure ;;
          emit (ServerCreated (Addr srv)) ;;
          emit GoListenAndServe ;;
          woke <- select_wakeup ;;
          match woke with
          | ServerFault e => ret (Some e)
          | Interrupt =>
              signal_stop ;;
              err <- Server_Shutdown srv context_Background ;;
              ret err
          end)
    end).

Definition main : M unit :=
  err <- run ;;
  match err with
  | Some e => log_Fatalf ("Error: " ++ Error e)
  | None => ret tt
  end.

(** The exit status of the process, given how [main] ended. *)
Definition exit_status (o : Outcome unit) : Z :=
  match o with
  | Ret _ => 0
  | Panic _ => 2
  | Exit c => c
  end.

(** * Vocabulary of the properties *)

(** The value rolled when [dice] starts in world [s]. *)
Definition roll_of (s : World) : Z := 1 + Z.of_N (rand_draws s (rand_pos s)) mod 6.

(** The outcome the writer [w] has in store for the next write. *)
Definition next_write (s : World) (w : Writer) : WriteOutcome :=
  hd WriteOk (rw_script (writers s w)).

Definition dice_msg (r : Request) : string :=
  if negb (String.eqb (PathValue r "player") "")
  then PathValue r "player" ++ " is rolling the dice"
  else "Anonymous player is rolling the dice".

(** The world in which the mux of [newHTTPHandler] runs: the server span
    of the request has been started. *)
Definition in_server_span (r : Request) (s : World) : World :=
  set_next_span (S (next_span s))
    (set_trace (trace s ++ [SpanStart (next_span s) (ctx_span (req_ctx r)) "/"]) s).

(** The request as the routed handler sees it. *)
Definition routed (r : Request) (s : World) : Request :=
  SetPathValues (WithContext r (mkContext (Some (next_span s)))) [].

(** The world in which the routed handler starts: the server span carries
    its route. *)
Definition tagged (route : string) (r : Request) (s : World) : World :=
  set_trace (trace (in_server_span r s) ++
             [SpanSetAttributes (next_span s) [("http.route", StringValue route)]])
            (in_server_span r s).

(** *** Reading a trace *)

(** The strings handed to [Write] on the writer [w], in order. *)
Definition body_writes (w : Writer) (evs : list Event) : list string :=
  flat_map (fun e => match e with
                     | BodyWrite w' data _ => if Nat.eqb w' w then [data] else []
                     | _ => []
                     end) evs.

(** The integer values stored under [key] in a list of attributes. *)
Definition int_field (key : string) (kvs : list KeyValue) : list Z :=
  flat_map (fun kv => match kv with
                      | (k, IntValue i) => if String.eqb k key then [i] else []
                      | _ => []
                      end) kvs.

Definition logged_results (evs : list Event) : list Z :=
  flat_map (fun e => match e with
                     | LogInfo _ _ fields => int_field "result" fields
                     | _ => []
                     end) evs.

Definition log_messages (evs : list Event) : list string :=
  flat_map (fun e => match e with LogInfo _ msg _ => [msg] | _ => [] end) evs.

Definition std_log_lines (evs : list Event) : list string :=
  flat_map (fun e => match e with StdLog line => [line] | _ => [] end) evs.

Definition span_attr_ints (key : string) (evs : list Event) : list Z :=
  flat_map (fun e => match e with
                     | SpanSetAttributes _ attrs => int_field key attrs
                     | _ => []
                     end) evs.

Definition counter_dims (name key : string) (evs : list Event) : list Z :=
  flat_map (fun e => match e with
                     | CounterAdd c _ attrs =>
                         if String.eqb (inst_name c) name then int_field key attrs else []
                     | _ => []
                     end) evs.

(** The increments of the instrument called [name], in order. *)
Definition counter_incrs (name : string) (evs : list Event) : list Z :=
  flat_map (fun e => match e with
                     | CounterAdd c incr _ =>
                         if String.eqb (inst_name c) name then [incr] else []
                     | _ => []
                     end) evs.

Definition counter_total (name : string) (evs : list Event) : Z :=
  fold_right Z.add 0 (counter_incrs name evs).

Definition span_starts (name : string) (evs : list Event) : list SpanID :=
  flat_map (fun e => match e with
                     | SpanStart id _ n => if String.eqb n name then [id] else []
                     | _ => []
                     end) evs.

(** How many times the span [id] is ended. *)
Definition span_ends (id : SpanID) (evs : list Event) : nat :=
  List.length (filter (fun e => match e with
                                | SpanEnd id' => Nat.eqb id' id
                                | _ => false
                                end) evs).

(** *** Concurrent requests *)

(** The handler of each request runs in a goroutine of its own, and every
    effect in its trace is atomic (the telemetry calls are safe for
    concurrent use).  What [n] concurrent executions leave in the shared
    trace is then a merge of their [n] traces that keeps the order of each. *)
Fixpoint replace_nth {A} (i : nat) (x : A) (l : list A) : list A :=
  match l, i with
  | [], _ => []
  | _ :: l', O => x :: l'
  | y :: l', S i' => y :: replace_nth i' x l'
  end.

Inductive Interleave {A : Type} : list (list A) -> list A -> Prop :=
| Interleave_done (ts : list (list A)) :
    Forall (fun t => t = []) ts -> Interleave ts []
| Interleave_step (ts : list (list A)) (i : nat) (x : A) (t m : list A) :
    nth_error ts i = Some (x :: t) ->
    Interleave (replace_nth i t ts) m ->
    Interleave ts (x :: m).

(** The increments of the instrument called [name] with their attributes. *)
Definition counter_adds (name : string) (evs : list Event) : list (Z * list KeyValue) :=
  flat_map (fun e => match e with
                     | CounterAdd c incr attrs =>
                         if String.eqb (inst_name c) name then [(incr, attrs)] else []
                     | _ => []
                     end) evs.

(** One request: its writer, the request and the world its handler starts in. *)
Definition Execution : Type := (Writer * Request * World)%type.

Definition execution_events (x : Execution) : list Event :=
  let '(w, r, s) := x in events_of (dice w r) s.

(** The total weight of a trace, and of several traces. *)
Definition total {A} (weight : A -> Z) (l : list A) : Z :=
  fold_right (fun x acc => weight x + acc) 0 l.

Definition grand_total {A} (weight : A -> Z) (ts : list (list A)) : Z :=
  fold_right (fun t acc => total weight t + acc) 0 ts.

(** The increment an event gives to the instrument called [name]. *)
Definition incr_of (name : string) (e : Event) : Z :=
  match e with
  | CounterAdd c incr _ => if String.eqb (inst_name c) name then incr else 0
  | _ => 0
  end.

(** Merging two traces by turns. *)
Fixpoint alternate {A} (l1 l2 : list A) : list A :=
  match l1, l2 with
  | [], _ => l2
  | _, [] => l1
  | x :: l1', y :: l2' => x :: y :: alternate l1' l2'
  end.

(** *** Reading the lifecycle *)

Definition srv_shutdowns (evs : list Event) : list goerror :=
  flat_map (fun e => match e with SrvShutdown err => [err] | _ => [] end) evs.

Definition otel_shutdowns (evs : list Event) : list goerror :=
  flat_map (fun e => match e with OtelShutdown err => [err] | _ => [] end) evs.

(** The events of a server being set up and started. *)
Definition server_events (evs : list Event) : list Event :=
  filter (fun e => match e with
                   | DefaultMuxHandle _ | ServerCreated _ | GoListenAndServe => true
                   | _ => false
                   end) evs.

(** Whether every call of the telemetry shutdown in a trace comes after a
    call of [srv.Shutdown]; [drained] tells whether one has been seen. *)
Fixpoint shutdown_in_order (drained : bool) (evs : list Event) : bool :=
  match evs with
  | [] => true
  | SrvShutdown _ :: rest => shutdown_in_order true rest
  | OtelShutdown _ :: rest => drained && shutdown_in_order drained rest
  | _ :: rest => shutdown_in_order drained rest
  end.

(** A world for the lifecycle: what [setupOTelSDK], the telemetry shutdown
    and [srv.Shutdown] return, and what wakes [run] up. *)
Definition with_env (setup shut srvs : goerror) (wk : Wakeup) : World :=
  mkWorld [] 0%nat (fun _ => 0%N) 0%nat (fun _ => mkResponseWriter None "" [])
          setup shut srvs wk.

(** *** Reading a response body back *)

Definition digit_value (c : ascii) : option Z :=
  if is_digit c then Some (Z.of_nat (nat_of_ascii c) - 48) else None.

Fixpoint parse_digits (acc : Z) (s : string) : option Z :=
  match s with
  | EmptyString => Some acc
  | String c s' =>
      match digit_value c with
      | Some d => parse_digits (10 * acc + d) s'
      | None => None
      end
  end.

(** The integer of a line made of decimal digits and a final newline. *)
Definition parse_line (s : string) : option Z :=
  match String.length s with
  | O => None
  | S n =>
      if (String.eqb (substring n 1 s) LF && (1 <=? n)%nat)%bool
      then parse_digits 0 (substring 0 n s)
      else None
  end.

(** *** Routing of the service *)




(** *** Discipline of spans *)

(** Whether a trace uses spans in a disciplined way, given the spans that
    are open (innermost first): a span started while another is open is a
    child of the innermost open one; attributes are set on open spans only;
    a log record carries the innermost open span; a span is ended only when
    it is the innermost open one; and no span is left open at the end. *)
Fixpoint spans_disciplined (open : list SpanID) (evs : list Event) : bool :=
  match evs with
  | [] => match open with [] => true | _ :: _ => false end
  | SpanStart id parent _ :: rest =>
      match open, parent with
      | [], _ => true
      | top :: _, Some p => Nat.eqb p top
      | _ :: _, None => false
      end && spans_disciplined (id :: open) rest
  | SpanSetAttributes id _ :: rest =>
      existsb (Nat.eqb id) open && spans_disciplined open rest
  | LogInfo span _ _ :: rest =>
      match open, span with
      | top :: _, Some i => Nat.eqb i top
      | [], None => true
      | _, _ => false
      end && spans_disciplined open rest
  | SpanEnd id :: rest =>
      match open with
      | top :: open' => Nat.eqb id top && spans_disciplined open' rest
      | [] => false
      end
  | _ :: rest => spans_disciplined open rest
  end.

(** *** The counter by face *)

(** The increment an event gives to the instrument called [name] under the
    value [v] of the dimension [key]. *)
Definition incr_at (name key : string) (v : Z) (e : Event) : Z :=
  match e with
  | CounterAdd c incr attrs =>
      if (String.eqb (inst_name c) name &&
          existsb (fun x => Z.eqb x v) (int_field key attrs))%bool
      then incr else 0
  | _ => 0
  end.

Definition counter_total_at (name key : string) (v : Z) (evs : list Event) : Z :=
  total (incr_at name key v) evs.

(** How many of the executions roll [v]. *)
Definition rolled (v : Z) (runs : list Execution) : nat :=
  List.length (filter (fun x : Execution => let '(_, _, s) := x in roll_of s =? v) runs).

(** *** The exit of the process *)


(** *** The route of a request *)


(** * Properties *)

(** ** The model on small inputs *)

Example Itoa_examples :
  (Itoa 0, Itoa 7, Itoa 10, Itoa 123, Itoa (-45), Itoa 1000)
  = ("0", "7", "10", "123", "-45", "1000").
Proof. vm_compute. reflexivity. Qed.

Example errors_Join_examples :
  errors_Join [None; None] = None /\
  errors_Join [Some (errorString "a"); None] = Some (joinError [errorString "a"]) /\
  Error (joinError [errorString "a"; errorString "b"]) = "a" ++ LF ++ "b".
Proof. split; [|split]; vm_compute; reflexivity. Qed.

Example match_pattern_examples :
  match_pattern "/" "/" = Some [] /\
  match_pattern "/" "/dice/Alice" = Some [] /\
  match_pattern "/dice" "/dice" = Some [] /\
  match_pattern "/dice" "/dice/Alice" = None /\
  match_pattern "/dice" "/" = None /\
  match_pattern "/dice/{player}" "/dice/Alice" = Some [("player", "Alice")] /\
  match_pattern "/dice/{player}" "/dice/" = None.
Proof. repeat (split; [vm_compute; reflexivity|]). vm_compute. reflexivity. Qed.

(** With a wildcard in the pattern the mux would hand the player over. *)
Example wildcard_route_binds_player :
  log_messages
    (events_of
       (ServeMux_ServeHTTP
          (ServeMux_Handle "/dice/{player}" dice (ServeMux_Handle "/" hello NewServeMux))
          0%nat (plain_request "/dice/Alice" ""))
       (world0 10 []))
  = ["Alice is rolling the dice"].
Proof. vm_compute. reflexivity. Qed.

Example dice_example :
  events_of (dice 0%nat (plain_request "/dice" "")) (world0 10 []) =
    [ SpanStart 0%nat None "roll";
      LogInfo (Some 0%nat) "Anonymous player is rolling the dice" [("result", IntValue 5)];
      SpanSetAttributes 0%nat [("roll.value", IntValue 5)];
      CounterAdd rollCnt 1 [("roll.value", IntValue 5)];
      BodyWrite 0%nat ("5" ++ LF) WriteOk;
      SpanEnd 0%nat ].
Proof. vm_compute. reflexivity. Qed.

(** ** Lists and strings *)

Section ListFacts.
Context {A : Type}.

Lemma skipn_app_length (l1 l2 : list A) :
  skipn (List.length l1) (l1 ++ l2) = l2.
Proof. induction l1 as [|x l1 IH]; simpl; auto. Qed.

End ListFacts.

Lemma append_assoc (a b c : string) : (a ++ b) ++ c = a ++ (b ++ c).
Proof. induction a as [|ch a IH]; simpl; [reflexivity | now rewrite IH]. Qed.

Lemma length_append_LF (t : string) :
  String.length (t ++ LF) = S (String.length t).
Proof. induction t as [|c t IH]; simpl; [reflexivity | now rewrite IH]. Qed.

Lemma substring_last_LF (t : string) :
  substring (String.length t) 1 (t ++ LF) = LF.
Proof. induction t as [|c t IH]; simpl; [reflexivity | exact IH]. Qed.

Lemma has_suffix_LF_append (t : string) : has_suffix_LF (t ++ LF) = true.
Proof.
  unfold has_suffix_LF.
  rewrite length_append_LF, substring_last_LF. reflexivity.
Qed.

Lemma log_line_LF (t : string) : log_line (t ++ LF) = t ++ LF.
Proof. unfold log_line. now rewrite has_suffix_LF_append. Qed.

(** ** What one execution of [dice] does *)

Arguments Itoa : simpl never.
Arguments Error : simpl never.
Arguments append : simpl never.
Arguments log_line : simpl never.
Arguments Z.add : simpl never.
Arguments Z.modulo : simpl never.
Arguments find_route : simpl never.

Ltac run_go :=
  unfold events_of, outcome_of, dice, defer, bind, ret, tracer_Start, rand_Intn,
    logger_InfoContext, span_SetAttributes, Int64Counter_Add, io_WriteString,
    ResponseWriter_Write, log_Printf, log_Output, span_End, emit; cbn.

Lemma dice_trace (w : Writer) (r : Request) (s : World) :
  trace (snd (dice w r s)) =
  (trace s ++
   [ SpanStart (next_span s) (ctx_span (req_ctx r)) "roll";
     LogInfo (Some (next_span s)) (dice_msg r) [("result", IntValue (roll_of s))];
     SpanSetAttributes (next_span s) [attribute_Int "roll.value" (roll_of s)];
     CounterAdd rollCnt 1 [attribute_Int "roll.value" (roll_of s)];
     BodyWrite w (Itoa (roll_of s) ++ LF) (next_write s w) ] ++
   match next_write s w with
   | WriteErr _ e => [StdLog ("Escritura fallida: " ++ Error e ++ LF)]
   | _ => []
   end ++
   [ SpanEnd (next_span s) ])%list.
Proof.
  unfold next_write, roll_of, dice_msg. run_go.
  destruct (hd WriteOk (rw_script (writers s w))) as [|n e|v]; cbn;
    rewrite <- ?app_assoc; cbn; try reflexivity.
  rewrite <- append_assoc, log_line_LF, append_assoc. reflexivity.
Qed.

Lemma dice_events (w : Writer) (r : Request) (s : World) :
  events_of (dice w r) s =
  ([ SpanStart (next_span s) (ctx_span (req_ctx r)) "roll";
     LogInfo (Some (next_span s)) (dice_msg r) [("result", IntValue (roll_of s))];
     SpanSetAttributes (next_span s) [attribute_Int "roll.value" (roll_of s)];
     CounterAdd rollCnt 1 [attribute_Int "roll.value" (roll_of s)];
     BodyWrite w (Itoa (roll_of s) ++ LF) (next_write s w) ] ++
   match next_write s w with
   | WriteErr _ e => [StdLog ("Escritura fallida: " ++ Error e ++ LF)]
   | _ => []
   end ++
   [ SpanEnd (next_span s) ])%list.
Proof.
  unfold events_of. rewrite dice_trace. apply skipn_app_length.
Qed.

Lemma dice_outcome (w : Writer) (r : Request) (s : World) :
  fst (dice w r s) =
  match next_write s w with
  | WritePanic v => Panic v
  | _ => Ret tt
  end.
Proof.
  unfold next_write. run_go.
  destruct (hd WriteOk (rw_script (writers s w))); reflexivity.
Qed.

Lemma dice_writer (w : Writer) (r : Request) (s : World) :
  rw_body (writers (snd (dice w r s)) w) =
  rw_body (writers s w) ++ accepted_part (next_write s w) (Itoa (roll_of s) ++ LF).
Proof.
  unfold next_write, roll_of. run_go.
  destruct (hd WriteOk (rw_script (writers s w))); cbn;
    unfold update_writer; rewrite Nat.eqb_refl; reflexivity.
Qed.

Lemma dice_rand_pos (w : Writer) (r : Request) (s : World) :
  rand_pos (snd (dice w r s)) = S (rand_pos s).
Proof.
  run_go. destruct (hd WriteOk (rw_script (writers s w))); reflexivity.
Qed.

Lemma roll_range (s : World) : 1 <= roll_of s <= 6.
Proof.
  unfold roll_of.
  pose proof (Z.mod_pos_bound (Z.of_N (rand_draws s (rand_pos s))) 6 ltac:(lia)).
  lia.
Qed.

Lemma small_roll_cases (k : Z) :
  1 <= k <= 6 -> k = 1 \/ k = 2 \/ k = 3 \/ k = 4 \/ k = 5 \/ k = 6.
Proof. lia. Qed.

(** A tactic for facts about a roll that are settled by running them on
    each of the six values. *)
Ltac by_roll_cases H :=
  destruct (small_roll_cases _ H) as [->|[->|[->|[->|[->| ->]]]]]; vm_compute;
  try reflexivity; try discriminate.

(** ** The response of [dice] *)

(** The format of the six lines [dice] can send. *)
Lemma roll_line_format (k : Z) :
  1 <= k <= 6 ->
  all_digits (Itoa k) = true /\
  first_char (Itoa k) <> Some "0"%char /\
  count_char "010"%char (Itoa k ++ LF) = 1%nat /\
  parse_line (Itoa k ++ LF) = Some k.
Proof.
  intros R. repeat split; by_roll_cases R.
Qed.

(** C1.  For every request handled by [dice], whatever the random source
    and the response writer do, the body the handler sends, that is the one
    string it writes to the response writer, is the decimal representation
    of an integer in [1,6], without a leading zero, followed by exactly one
    newline; and the writer's body grows by what it accepts of that string,
    which is all of it when the write succeeds. *)
Theorem dice_response_body (w : Writer) (r : Request) (s : World) :
  exists k : Z,
    1 <= k <= 6 /\
    body_writes w (events_of (dice w r) s) = [Itoa k ++ LF] /\
    all_digits (Itoa k) = true /\
    first_char (Itoa k) <> Some "0"%char /\
    count_char "010"%char (Itoa k ++ LF) = 1%nat /\
    parse_line (Itoa k ++ LF) = Some k /\
    rw_body (writers (snd (dice w r s)) w) =
      rw_body (writers s w) ++ accepted_part (next_write s w) (Itoa k ++ LF) /\
    accepted_part WriteOk (Itoa k ++ LF) = Itoa k ++ LF.
Proof.
  exists (roll_of s). pose proof (roll_range s) as R.
  destruct (roll_line_format _ R) as (D & Z0 & N1 & P).
  split; [exact R|]. split.
  { rewrite dice_events.
    destruct (next_write s w); cbn; rewrite Nat.eqb_refl; reflexivity. }
  repeat (split; [assumption|]).
  split; [apply dice_writer | reflexivity].
Qed.

(** The one value of an execution, in the four places it goes to. *)
Lemma dice_single_roll_facts (w : Writer) (r : Request) (s : World) :
  rand_pos (snd (dice w r s)) = S (rand_pos s) /\
  logged_results (events_of (dice w r) s) = [roll_of s] /\
  span_attr_ints "roll.value" (events_of (dice w r) s) = [roll_of s] /\
  counter_dims "dice.rolls" "roll.value" (events_of (dice w r) s) = [roll_of s] /\
  map parse_line (body_writes w (events_of (dice w r) s)) = [Some (roll_of s)].
Proof.
  split; [apply dice_rand_pos|].
  rewrite dice_events.
  destruct (roll_line_format _ (roll_range s)) as (_ & _ & _ & P).
  destruct (next_write s w); cbn; rewrite Nat.eqb_refl; cbn; rewrite P;
    repeat split; reflexivity.
Qed.

(** C10.  In every execution of [dice] one value is drawn, once, and it is
    the value of the log record's "result" field, of the span attribute
    "roll.value", of the counter dimension "roll.value" and of the integer
    written to the response body. *)
Theorem dice_single_roll (w : Writer) (r : Request) (s : World) :
  exists v : Z,
    v = roll_of s /\
    rand_pos (snd (dice w r s)) = S (rand_pos s) /\
    logged_results (events_of (dice w r) s) = [v] /\
    span_attr_ints "roll.value" (events_of (dice w r) s) = [v] /\
    counter_dims "dice.rolls" "roll.value" (events_of (dice w r) s) = [v] /\
    map parse_line (body_writes w (events_of (dice w r) s)) = [Some v].
Proof.
  exists (roll_of s). split; [reflexivity|]. apply dice_single_roll_facts.
Qed.

(** ** The span of [dice] *)

(** C5.  In every execution of [dice], however it ends (the write
    succeeds, the write fails and the failure is logged, or the writer
    panics), the handler starts exactly one span named "roll" and that span
    is ended exactly once, as the last thing the handler does. *)
Theorem dice_span_ended_once (w : Writer) (r : Request) (s : World) :
  exists id : SpanID,
    span_starts "roll" (events_of (dice w r) s) = [id] /\
    span_ends id (events_of (dice w r) s) = 1%nat /\
    last (events_of (dice w r) s) SignalNotify = SpanEnd id.
Proof.
  exists (next_span s). rewrite dice_events.
  destruct (next_write s w); cbn; rewrite Nat.eqb_refl; repeat split; reflexivity.
Qed.

(** ** A failing write *)

(** C6.  When the write of the response body fails with an error, [dice]
    logs the failure on the standard logger and returns normally; the log
    record, the span attribute and the counter increment of the request
    were emitted before the write, and they stay in the trace. *)
Theorem dice_write_failure (w : Writer) (r : Request) (s : World)
    (n : nat) (e : error) :
  next_write s w = WriteErr n e ->
  outcome_of (dice w r) s = Ret tt /\
  trace (snd (dice w r s)) =
    (trace s ++
     [ SpanStart (next_span s) (ctx_span (req_ctx r)) "roll";
       LogInfo (Some (next_span s)) (dice_msg r) [("result", IntValue (roll_of s))];
       SpanSetAttributes (next_span s) [attribute_Int "roll.value" (roll_of s)];
       CounterAdd rollCnt 1 [attribute_Int "roll.value" (roll_of s)];
       BodyWrite w (Itoa (roll_of s) ++ LF) (WriteErr n e);
       StdLog ("Escritura fallida: " ++ Error e ++ LF);
       SpanEnd (next_span s) ])%list.
Proof.
  intros F. split.
  - unfold outcome_of. rewrite dice_outcome, F. reflexivity.
  - rewrite dice_trace, F. reflexivity.
Qed.

Lemma dice_write_failure_witness :
  next_write (world0 10 [WriteErr 0 (errorString "broken pipe")]) 0%nat
    = WriteErr 0 (errorString "broken pipe") /\
  outcome_of (dice 0%nat (plain_request "/dice" ""))
             (world0 10 [WriteErr 0 (errorString "broken pipe")]) = Ret tt /\
  std_log_lines (trace (snd (dice 0%nat (plain_request "/dice" "")
             (world0 10 [WriteErr 0 (errorString "broken pipe")]))))
    = ["Escritura fallida: broken pipe" ++ LF].
Proof.
  split; [reflexivity|].
  destruct (dice_write_failure 0%nat (plain_request "/dice" "")
              (world0 10 [WriteErr 0 (errorString "broken pipe")])
              0%nat (errorString "broken pipe") eq_refl) as [O T].
  split; [exact O|]. rewrite T. reflexivity.
Defined.

(** ** Routing and the message of [dice] *)

(** The message [dice] logs is decided by the path value "player" alone. *)
Lemma dice_log_message (w : Writer) (r : Request) (s : World) :
  log_messages (events_of (dice w r) s) = [dice_msg r].
Proof.
  rewrite dice_events. destruct (next_write s w); reflexivity.
Qed.

Lemma dice_msg_player (r : Request) (player : string) :
  PathValue r "player" = player -> player <> "" ->
  dice_msg r = player ++ " is rolling the dice".
Proof.
  intros E NE. subst player. unfold dice_msg.
  destruct (String.eqb_spec (PathValue r "player") ""); [contradiction | reflexivity].
Qed.

Lemma dice_msg_anonymous (r : Request) :
  PathValue r "player" = "" -> dice_msg r = "Anonymous player is rolling the dice".
Proof. intros E. unfold dice_msg. rewrite E. reflexivity. Qed.

(** A pattern without wildcards binds no path value. *)
Lemma match_segments_no_wildcard (pat path : list string) (vs : list (string * string)) :
  Forall (fun p => wildcard_name p = None) pat ->
  match_segments pat path = Some vs -> vs = [].
Proof.
  intros NW. revert path vs.
  induction NW as [|p pat Hp NW IH]; intros path vs; simpl.
  - destruct path; congruence.
  - rewrite Hp. destruct path as [|x path].
    + destruct p as [|c p]; [destruct pat|]; discriminate.
    + intros H.
      assert (G : (if String.eqb p x then match_segments pat path else None) = Some vs
                  \/ Some [] = Some vs).
      { destruct p as [|c p]; [destruct pat|]; auto. }
      destruct G as [G|G]; [|congruence].
      destruct (String.eqb p x); [eauto | discriminate].
Qed.

Lemma match_pattern_dice (path : string) (vs : list (string * string)) :
  match_pattern "/dice" path = Some vs -> vs = [].
Proof.
  apply match_segments_no_wildcard. repeat constructor.
Qed.

Lemma match_pattern_root (path : string) (vs : list (string * string)) :
  match_pattern "/" path = Some vs -> vs = [].
Proof.
  apply match_segments_no_wildcard. repeat constructor.
Qed.

(** Routing in the mux of [newHTTPHandler]: "/dice" wins where it matches,
    "/" takes every other path, and neither binds a path value. *)
Lemma find_route_dice_service (h1 h2 : Handler) (path : string) :
  find_route [("/", h1); ("/dice", h2)] path =
  match match_pattern "/dice" path with
  | Some _ => Some ("/dice", h2, [])
  | None =>
      match match_pattern "/" path with
      | Some _ => Some ("/", h1, [])
      | None => None
      end
  end.
Proof.
  unfold find_route.
  destruct (match_pattern "/dice" path) as [vs|] eqn:D;
    destruct (match_pattern "/" path) as [vs0|] eqn:R0;
    try (apply match_pattern_dice in D; subst vs);
    try (apply match_pattern_root in R0; subst vs0);
    reflexivity.
Qed.

Lemma WriteHeader_trace (w : Writer) (c : Z) (s : World) :
  trace (snd (ResponseWriter_WriteHeader w c s)) = trace s.
Proof.
  unfold ResponseWriter_WriteHeader. destruct (rw_status (writers s w)); reflexivity.
Qed.

Lemma WriteHeader_body (w : Writer) (c : Z) (s : World) :
  rw_body (writers (snd (ResponseWriter_WriteHeader w c s)) w) = rw_body (writers s w).
Proof.
  unfold ResponseWriter_WriteHeader.
  destruct (rw_status (writers s w)); cbn; [reflexivity|].
  unfold update_writer. rewrite Nat.eqb_refl. reflexivity.
Qed.

Lemma match_dice_dice : match_pattern "/dice" "/dice" = Some [].
Proof. vm_compute. reflexivity. Qed.

Lemma match_dice_root : match_pattern "/dice" "/" = None.
Proof. vm_compute. reflexivity. Qed.

Lemma match_root_root : match_pattern "/" "/" = Some [].
Proof. vm_compute. reflexivity. Qed.

Lemma mux_serves_dice (h1 h2 : Handler) (w : Writer) (r : Request) (s : World) :
  URL_Path r = "/dice" ->
  ServeMux_ServeHTTP (mkServeMux [("/", h1); ("/dice", h2)]) w r s
  = h2 w (SetPathValues r []) s.
Proof.
  intros P. unfold ServeMux_ServeHTTP. cbn [routes].
  rewrite find_route_dice_service, P, match_dice_dice. reflexivity.
Qed.

Lemma mux_serves_root (h1 h2 : Handler) (w : Writer) (r : Request) (s : World) :
  URL_Path r = "/" ->
  ServeMux_ServeHTTP (mkServeMux [("/", h1); ("/dice", h2)]) w r s
  = h1 w (SetPathValues r []) s.
Proof.
  intros P. unfold ServeMux_ServeHTTP. cbn [routes].
  rewrite find_route_dice_service, P, match_dice_root, match_root_root. reflexivity.
Qed.

(** The wrappers of [newHTTPHandler], for arbitrary inner handlers. *)
Section Wrappers.
Variables (h h1 h2 : Handler) (w : Writer) (r : Request) (s : World).

Lemma defer_End_trace (id : SpanID) (body : M unit) :
  trace (snd (defer (span_End id) body s)) =
  match fst (body s) with
  | Exit _ => trace (snd (body s))
  | _ => (trace (snd (body s)) ++ [SpanEnd id])%list
  end.
Proof.
  unfold defer, span_End, emit. destruct (body s) as [[a|v|c] s']; reflexivity.
Qed.

Lemma defer_End_outcome (id : SpanID) (body : M unit) :
  fst (defer (span_End id) body s) = fst (body s).
Proof.
  unfold defer, span_End, emit. destruct (body s) as [[[]|v|c] s']; reflexivity.
Qed.

Lemma defer_End_writers (id : SpanID) (body : M unit) :
  writers (snd (defer (span_End id) body s)) = writers (snd (body s)).
Proof.
  unfold defer, span_End, emit. destruct (body s) as [[a|v|c] s']; reflexivity.
Qed.

Lemma handler_on_dice_path :
  URL_Path r = "/dice" ->
  otelhttp_NewHandler
    (ServeMux_ServeHTTP
       (mkServeMux [("/", otelhttp_WithRouteTag "/" h1);
                    ("/dice", otelhttp_WithRouteTag "/dice" h2)])) "/" w r s =
  defer (span_End (next_span s))
        (fun _ => h2 w (routed r s) (tagged "/dice" r s)) s.
Proof.
  intros P. unfold otelhttp_NewHandler, bind, tracer_Start, defer.
  rewrite mux_serves_dice by exact P. reflexivity.
Qed.

Lemma handler_on_root_path :
  URL_Path r = "/" ->
  otelhttp_NewHandler
    (ServeMux_ServeHTTP
       (mkServeMux [("/", otelhttp_WithRouteTag "/" h1);
                    ("/dice", otelhttp_WithRouteTag "/dice" h2)])) "/" w r s =
  defer (span_End (next_span s))
        (fun _ => h1 w (routed r s) (tagged "/" r s)) s.
Proof.
  intros P. unfold otelhttp_NewHandler, bind, tracer_Start, defer.
  rewrite mux_serves_root by exact P. reflexivity.
Qed.

Lemma Server_serve_trace (sv : Server) :
  srv_Handler sv = Some h ->
  trace (snd (Server_serve sv w r s)) =
  match fst (h w r s) with
  | Panic v =>
      (trace (snd (h w r s)) ++ [StdLog (log_line ("http: panic serving: " ++ v))])%list
  | _ => trace (snd (h w r s))
  end.
Proof.
  intros E. unfold Server_serve. rewrite E.
  destruct (h w r s) as [[a|v|c] s']; cbn [fst snd];
    [apply WriteHeader_trace | reflexivity..].
Qed.

Lemma Server_serve_body (sv : Server) :
  srv_Handler sv = Some h ->
  rw_body (writers (snd (Server_serve sv w r s)) w) =
  rw_body (writers (snd (h w r s)) w).
Proof.
  intros E. unfold Server_serve. rewrite E.
  destruct (h w r s) as [[a|v|c] s']; cbn [fst snd];
    [apply WriteHeader_body | reflexivity..].
Qed.

End Wrappers.

Lemma newHTTPHandler_on_dice_path (w : Writer) (r : Request) (s : World) :
  URL_Path r = "/dice" ->
  newHTTPHandler w r s =
  defer (span_End (next_span s)) (fun _ => dice w (routed r s) (tagged "/dice" r s)) s.
Proof. apply (handler_on_dice_path hello dice). Qed.

Lemma newHTTPHandler_on_root_path (w : Writer) (r : Request) (s : World) :
  URL_Path r = "/" ->
  newHTTPHandler w r s =
  defer (span_End (next_span s)) (fun _ => hello w (routed r s) (tagged "/" r s)) s.
Proof. apply (handler_on_root_path hello dice). Qed.

(** What the server adds to the trace for a request for /dice: its own
    span around the events of [dice], and a line for a recovered panic. *)
Lemma served_dice_events (w : Writer) (r : Request) (s : World) :
  URL_Path r = "/dice" ->
  events_of (Server_serve srv w r) s =
  ([ SpanStart (next_span s) (ctx_span (req_ctx r)) "/";
     SpanSetAttributes (next_span s) [("http.route", StringValue "/dice")] ] ++
   events_of (dice w (routed r s)) (tagged "/dice" r s) ++
   [ SpanEnd (next_span s) ] ++
   match next_write (tagged "/dice" r s) w with
   | WritePanic v => [StdLog (log_line ("http: panic serving: " ++ v))]
   | _ => []
   end)%list.
Proof.
  intros P. unfold events_of at 1.
  rewrite (Server_serve_trace newHTTPHandler) by reflexivity.
  rewrite newHTTPHandler_on_dice_path by exact P.
  rewrite defer_End_trace, defer_End_outcome.
  rewrite dice_outcome, dice_events, dice_trace.
  change (trace (tagged "/dice" r s)) with
    ((trace s ++ [SpanStart (next_span s) (ctx_span (req_ctx r)) "/"]) ++
     [SpanSetAttributes (next_span s) [("http.route", StringValue "/dice")]])%list.
  destruct (next_write (tagged "/dice" r s) w);
    rewrite <- ?app_assoc; apply skipn_app_length.
Qed.

(** X4.  Whatever its query says, a request the server receives for the path
    /dice, with no path value set on it, makes [dice] log the anonymous
    message: the pattern "/dice" has no wildcard to bind "player". *)
Lemma served_dice_is_anonymous (w : Writer) (r : Request) (s : World) :
  URL_Path r = "/dice" -> PathValue r "player" = "" ->
  log_messages (events_of (Server_serve srv w r) s) =
    ["Anonymous player is rolling the dice"].
Proof.
  intros P V. rewrite served_dice_events by exact P.
  rewrite dice_events.
  assert (A : dice_msg (routed r s) = "Anonymous player is rolling the dice")
    by (apply dice_msg_anonymous; exact V).
  rewrite A.
  destruct (next_write (tagged "/dice" r s) w); reflexivity.
Qed.

(** C2.  The server's route for [dice] is the pattern "/dice", which has
    no wildcard: a request for /dice that carries player=Alice in its query
    is logged with the anonymous message, not with "Alice is rolling the
    dice", and a request for /dice/Alice is not served by [dice] at all. *)
Theorem served_dice_ignores_player :
  log_messages (events_of (Server_serve srv 0%nat (plain_request "/dice" "player=Alice"))
                          (world0 10 []))
    = ["Anonymous player is rolling the dice"] /\
  log_messages (events_of (Server_serve srv 0%nat (plain_request "/dice/Alice" ""))
                          (world0 10 []))
    = [] /\
  log_messages (events_of (dice 0%nat
       (SetPathValues (plain_request "/dice" "") [("player", "Alice")])) (world0 10 []))
    = ["Alice is rolling the dice"].
Proof.
  split; [|split]; vm_compute; reflexivity.
Qed.

(** ** The route "/" *)

(** A request for the path / is served by [hello]: one line on the
    standard logger, nothing written to the response. *)
Lemma served_root_events (w : Writer) (r : Request) (s : World) :
  URL_Path r = "/" ->
  events_of (Server_serve srv w r) s =
    [ SpanStart (next_span s) (ctx_span (req_ctx r)) "/";
      SpanSetAttributes (next_span s) [("http.route", StringValue "/")];
      StdLog ("Hola, Mundo!" ++ LF);
      SpanEnd (next_span s) ] /\
  rw_body (writers (snd (Server_serve srv w r s)) w) = rw_body (writers s w).
Proof.
  intros P. split.
  - unfold events_of.
    rewrite (Server_serve_trace newHTTPHandler) by reflexivity.
    rewrite newHTTPHandler_on_root_path by exact P.
    rewrite defer_End_trace, defer_End_outcome.
    unfold hello, log_Println, log_Output, emit. cbn [fst snd trace set_trace].
    rewrite log_line_LF.
    change (trace (tagged "/" r s)) with
      ((trace s ++ [SpanStart (next_span s) (ctx_span (req_ctx r)) "/"]) ++
       [SpanSetAttributes (next_span s) [("http.route", StringValue "/")]])%list.
    rewrite <- !app_assoc. apply skipn_app_length.
  - rewrite (Server_serve_body newHTTPHandler) by reflexivity.
    rewrite newHTTPHandler_on_root_path by exact P.
    rewrite defer_End_writers. reflexivity.
Qed.

(** C3.  A GET request for / is served by [hello], the handler that
    [newHTTPHandler] registers for "/": the response has status 200 and an
    empty body, and "Hola, Mundo!" goes to the standard logger.  The closure
    that writes "Hola, Mundo!" is registered on the default mux, which a
    server with a handler of its own does not consult; a server without one
    would send that body. *)
Theorem served_root_body_is_empty :
  rw_body (writers (snd (Server_serve srv 0%nat (plain_request "/" "") (world0 10 [])))
                   0%nat) = "" /\
  rw_status (writers (snd (Server_serve srv 0%nat (plain_request "/" "") (world0 10 [])))
                     0%nat) = Some 200 /\
  body_writes 0%nat (events_of (Server_serve srv 0%nat (plain_request "/" ""))
                               (world0 10 [])) = [] /\
  std_log_lines (events_of (Server_serve srv 0%nat (plain_request "/" ""))
                           (world0 10 [])) = ["Hola, Mundo!" ++ LF] /\
  rw_body (writers (snd (Server_serve (mkServer ":8080" 0 0 None) 0%nat
                                      (plain_request "/" "") (world0 10 [])))
                   0%nat) = "Hola, Mundo!".
Proof.
  split; [|split; [|split; [|split]]]; vm_compute; reflexivity.
Qed.

(** ** The counter *)

Section Merging.
Context {A : Type} (weight : A -> Z).

Lemma grand_total_empty (ts : list (list A)) :
  Forall (fun t => t = []) ts -> grand_total weight ts = 0.
Proof.
  induction 1 as [|t ts Ht _ IH]; simpl; [reflexivity|].
  rewrite Ht, IH. reflexivity.
Qed.

Lemma grand_total_step (ts : list (list A)) (i : nat) (x : A) (t : list A) :
  nth_error ts i = Some (x :: t) ->
  grand_total weight ts = weight x + grand_total weight (replace_nth i t ts).
Proof.
  revert i. induction ts as [|t0 ts IH]; intros [|i] H; simpl in *; try discriminate.
  - injection H as ->. simpl. lia.
  - rewrite (IH i H). lia.
Qed.

(** A merge neither loses nor repeats anything: its total weight is the
    sum of the totals of the merged traces. *)
Lemma Interleave_total (ts : list (list A)) (m : list A) :
  Interleave ts m -> total weight m = grand_total weight ts.
Proof.
  induction 1 as [ts E | ts i x t m N _ IH].
  - now rewrite grand_total_empty.
  - simpl. rewrite IH. symmetry. now apply grand_total_step.
Qed.

End Merging.

Lemma counter_total_weight (name : string) (evs : list Event) :
  counter_total name evs = total (incr_of name) evs.
Proof.
  unfold counter_total, counter_incrs.
  induction evs as [|e evs IH]; [reflexivity|].
  cbn [flat_map total fold_right]. fold (total (incr_of name) evs). rewrite <- IH.
  destruct e; cbn [incr_of List.app]; try reflexivity.
  destruct (String.eqb (inst_name inst) name); reflexivity.
Qed.

Lemma dice_counter_adds (w : Writer) (r : Request) (s : World) :
  counter_adds "dice.rolls" (events_of (dice w r) s) =
    [(1, [attribute_Int "roll.value" (roll_of s)])].
Proof.
  rewrite dice_events. destruct (next_write s w); reflexivity.
Qed.

Lemma dice_counter_total (w : Writer) (r : Request) (s : World) :
  counter_total "dice.rolls" (events_of (dice w r) s) = 1.
Proof.
  rewrite dice_events. destruct (next_write s w); reflexivity.
Qed.

Lemma dice_runs_grand_total (runs : list Execution) :
  grand_total (incr_of "dice.rolls") (map execution_events runs)
  = Z.of_nat (List.length runs).
Proof.
  induction runs as [|[[w r] s] runs IH]; [reflexivity|].
  cbn [map grand_total fold_right List.length].
  fold (grand_total (incr_of "dice.rolls") (map execution_events runs)).
  rewrite IH. unfold execution_events at 1.
  rewrite <- counter_total_weight, dice_counter_total. lia.
Qed.

(** C4.  Every execution of [dice] adds to the counter dice.rolls exactly
    once, by 1, with the dimension roll.value equal to the value rolled for
    that request (the one written to its response); and however the traces
    of N concurrent executions are interleaved, the increments of dice.rolls
    in the merged trace sum to N. *)
Theorem dice_counter_increments :
  (forall (w : Writer) (r : Request) (s : World),
      counter_adds "dice.rolls" (events_of (dice w r) s)
        = [(1, [attribute_Int "roll.value" (roll_of s)])] /\
      map parse_line (body_writes w (events_of (dice w r) s)) = [Some (roll_of s)]) /\
  (forall (runs : list Execution) (merged : list Event),
      Interleave (map execution_events runs) merged ->
      counter_total "dice.rolls" merged = Z.of_nat (List.length runs)).
Proof.
  split.
  - intros w r s. split; [apply dice_counter_adds|].
    destruct (dice_single_roll_facts w r s) as (_ & _ & _ & _ & B). exact B.
  - intros runs merged I.
    rewrite counter_total_weight, (Interleave_total _ _ _ I).
    apply dice_runs_grand_total.
Qed.

Ltac pick_next :=
  first [ eapply (Interleave_step _ 0%nat); [reflexivity | cbn [replace_nth]]
        | eapply (Interleave_step _ 1%nat); [reflexivity | cbn [replace_nth]] ].

Lemma dice_counter_increments_witness :
  Interleave
    (map execution_events
       [ (0%nat, plain_request "/dice" "", world0 10 []);
         (1%nat, plain_request "/dice" "player=Alice",
          world0 3 [WriteErr 0 (errorString "broken pipe")]) ])
    (alternate
       (execution_events (0%nat, plain_request "/dice" "", world0 10 []))
       (execution_events (1%nat, plain_request "/dice" "player=Alice",
                         world0 3 [WriteErr 0 (errorString "broken pipe")]))) /\
  counter_total "dice.rolls"
    (alternate
       (execution_events (0%nat, plain_request "/dice" "", world0 10 []))
       (execution_events (1%nat, plain_request "/dice" "player=Alice",
                         world0 3 [WriteErr 0 (errorString "broken pipe")]))) = 2.
Proof.
  assert (I : Interleave
    (map execution_events
       [ (0%nat, plain_request "/dice" "", world0 10 []);
         (1%nat, plain_request "/dice" "player=Alice",
          world0 3 [WriteErr 0 (errorString "broken pipe")]) ])
    (alternate
       (execution_events (0%nat, plain_request "/dice" "", world0 10 []))
       (execution_events (1%nat, plain_request "/dice" "player=Alice",
                         world0 3 [WriteErr 0 (errorString "broken pipe")])))).
  { vm_compute. repeat pick_next. apply Interleave_done. repeat constructor. }
  split; [exact I|].
  exact (proj2 dice_counter_increments _ _ I).
Defined.

(** ** The lifecycle of the process *)

Ltac run_lifecycle :=
  unfold events_of, outcome_of, main, run, defer, defer_named, bind, ret,
    setupOTelSDK, otelShutdown, http_HandleFunc, Server_Shutdown, select_wakeup,
    signal_stop, log_Fatalf, log_Output, emit; cbn.

Lemma run_setup_failure (s : World) (e : error) :
  otel_setup_err s = Some e ->
  fst (run s) = Exit 1 /\
  events_of run s =
    [ SignalNotify; SetupOTelSDK (Some e);
      StdLog (log_line ("Fallo al configurar OpenTelemetry SDK: " ++ Error e)) ].
Proof.
  intros F. run_lifecycle. rewrite F. cbn.
  split; [reflexivity|]. rewrite <- !app_assoc. apply skipn_app_length.
Qed.

Lemma run_server_fault (s : World) (e : error) :
  otel_setup_err s = None -> wakeup s = ServerFault e ->
  fst (run s) = Ret (errors_Join [Some e; otel_shutdown_err s]) /\
  events_of run s =
    [ SignalNotify; SetupOTelSDK None; DefaultMuxHandle "/"; ServerCreated ":8080";
      GoListenAndServe; OtelShutdown (otel_shutdown_err s); SignalStop ].
Proof.
  intros F W. run_lifecycle. rewrite F. cbn. rewrite W. cbn.
  split; [reflexivity|]. rewrite <- !app_assoc. apply skipn_app_length.
Qed.

Lemma run_interrupt (s : World) :
  otel_setup_err s = None -> wakeup s = Interrupt ->
  fst (run s) = Ret (errors_Join [srv_shutdown_err s; otel_shutdown_err s]) /\
  events_of run s =
    [ SignalNotify; SetupOTelSDK None; DefaultMuxHandle "/"; ServerCreated ":8080";
      GoListenAndServe; SignalStop; SrvShutdown (srv_shutdown_err s);
      OtelShutdown (otel_shutdown_err s); SignalStop ].
Proof.
  intros F W. run_lifecycle. rewrite F. cbn. rewrite W. cbn.
  split; [reflexivity|]. rewrite <- !app_assoc. apply skipn_app_length.
Qed.

(** C7, as claimed: in every run, every call of the telemetry shutdown
    comes after a call of [srv.Shutdown].  It fails when serving ends with
    a server error: [run] returns from the [select] at once, and the
    deferred telemetry shutdown runs though [srv.Shutdown] was never
    called. *)
Lemma shutdown_order_fails_on_server_fault :
  shutdown_in_order false
    (events_of run (with_env None None None
                      (ServerFault (errorString "listen tcp :8080: address in use"))))
    = false /\
  srv_shutdowns
    (events_of run (with_env None None None
                      (ServerFault (errorString "listen tcp :8080: address in use"))))
    = [] /\
  otel_shutdowns
    (events_of run (with_env None None None
                      (ServerFault (errorString "listen tcp :8080: address in use"))))
    = [None].
Proof.
  split; [|split]; vm_compute; reflexivity.
Qed.

(** C7, amended.  When [run] is woken by the interrupt, [srv.Shutdown] is
    called, once, and has returned before the telemetry bundle's shutdown
    function is invoked, once.  When [run] is woken by a server error,
    [srv.Shutdown] is not called and the telemetry shutdown is invoked all
    the same.  When the bundle could not be set up, neither is called. *)
Theorem run_shutdown_order (s : World) :
  match otel_setup_err s, wakeup s with
  | Some _, _ =>
      srv_shutdowns (events_of run s) = [] /\
      otel_shutdowns (events_of run s) = []
  | None, Interrupt =>
      shutdown_in_order false (events_of run s) = true /\
      srv_shutdowns (events_of run s) = [srv_shutdown_err s] /\
      otel_shutdowns (events_of run s) = [otel_shutdown_err s]
  | None, ServerFault _ =>
      srv_shutdowns (events_of run s) = [] /\
      otel_shutdowns (events_of run s) = [otel_shutdown_err s]
  end.
Proof.
  destruct (otel_setup_err s) as [e|] eqn:F.
  - destruct (run_setup_failure s e F) as [_ ->]. split; reflexivity.
  - destruct (wakeup s) as [e|] eqn:W.
    + destruct (run_server_fault s e F W) as [_ ->]. split; reflexivity.
    + destruct (run_interrupt s F W) as [_ ->]. repeat split; reflexivity.
Qed.

Lemma errors_Join_last (a : goerror) (e : error) :
  exists es : list error, errors_Join [a; Some e] = Some (joinError (es ++ [e])).
Proof.
  destruct a as [e0|]; [exists [e0] | exists []]; reflexivity.
Qed.

(** C8.  Once the telemetry bundle is set up, [run] returns the join of the
    error serving ended with (the server's error, or else the error of
    [srv.Shutdown]) with the error of the telemetry shutdown; the telemetry
    shutdown is invoked exactly once, whether or not serving ended with an
    error, and when it fails its error is part of what [run] returns. *)
Theorem run_returns_join (s : World) :
  otel_setup_err s = None ->
  outcome_of run s =
    Ret (errors_Join [ match wakeup s with
                       | ServerFault e => Some e
                       | Interrupt => srv_shutdown_err s
                       end;
                       otel_shutdown_err s ]) /\
  otel_shutdowns (events_of run s) = [otel_shutdown_err s] /\
  (forall e' : error, otel_shutdown_err s = Some e' ->
     exists es : list error, outcome_of run s = Ret (Some (joinError (es ++ [e'])))).
Proof.
  intros F. unfold outcome_of.
  assert (R : fst (run s) =
              Ret (errors_Join [ match wakeup s with
                                 | ServerFault e => Some e
                                 | Interrupt => srv_shutdown_err s
                                 end; otel_shutdown_err s ]) /\
              otel_shutdowns (events_of run s) = [otel_shutdown_err s]).
  { destruct (wakeup s) as [e|] eqn:W.
    - destruct (run_server_fault s e F W) as [-> ->]. split; reflexivity.
    - destruct (run_interrupt s F W) as [-> ->]. split; reflexivity. }
  destruct R as [R1 R2]. split; [exact R1|]. split; [exact R2|].
  intros e' E. rewrite R1, E.
  destruct (errors_Join_last
              (match wakeup s with
               | ServerFault e => Some e
               | Interrupt => srv_shutdown_err s
               end) e') as [es J].
  exists es. f_equal. exact J.
Qed.

Lemma run_returns_join_witness :
  otel_setup_err (with_env None (Some (errorString "flush failed"))
                           (Some (errorString "context deadline exceeded")) Interrupt)
    = None /\
  outcome_of run (with_env None (Some (errorString "flush failed"))
                           (Some (errorString "context deadline exceeded")) Interrupt)
    = Ret (Some (joinError [ errorString "context deadline exceeded";
                             errorString "flush failed" ])).
Proof.
  split; [reflexivity|].
  exact (proj1 (run_returns_join
                  (with_env None (Some (errorString "flush failed"))
                            (Some (errorString "context deadline exceeded")) Interrupt)
                  eq_refl)).
Defined.

(** C9.  When [setupOTelSDK] fails, the process logs the cause and exits
    with status 1; nothing else has happened by then: no handler is
    registered, no server is created and none is started. *)
Theorem main_aborts_on_setup_failure (s : World) (e : error) :
  otel_setup_err s = Some e ->
  outcome_of main s = Exit 1 /\
  exit_status (outcome_of main s) <> 0 /\
  events_of main s =
    [ SignalNotify; SetupOTelSDK (Some e);
      StdLog (log_line ("Fallo al configurar OpenTelemetry SDK: " ++ Error e)) ] /\
  server_events (events_of main s) = [].
Proof.
  intros F.
  assert (O : outcome_of main s = Exit 1)
    by (run_lifecycle; rewrite F; reflexivity).
  assert (E : events_of main s =
              [ SignalNotify; SetupOTelSDK (Some e);
                StdLog (log_line ("Fallo al configurar OpenTelemetry SDK: " ++ Error e)) ]).
  { run_lifecycle. rewrite F. cbn. rewrite <- !app_assoc. apply skipn_app_length. }
  rewrite O, E. repeat split; try reflexivity. discriminate.
Qed.

Lemma main_aborts_on_setup_failure_witness :
  otel_setup_err (with_env (Some (errorString "no exporter")) None None Interrupt)
    = Some (errorString "no exporter") /\
  outcome_of main (with_env (Some (errorString "no exporter")) None None Interrupt)
    = Exit 1 /\
  std_log_lines (events_of main
                   (with_env (Some (errorString "no exporter")) None None Interrupt))
    = ["Fallo al configurar OpenTelemetry SDK: no exporter" ++ LF].
Proof.
  split; [reflexivity|].
  destruct (main_aborts_on_setup_failure
              (with_env (Some (errorString "no exporter")) None None Interrupt)
              (errorString "no exporter") eq_refl) as (O & _ & E & _).
  split; [exact O|]. rewrite E. vm_compute. reflexivity.
Defined.

(** * Further properties of the service *)













(** ** Routing of the service *)



Section Routes.
Variables (h h1 h2 : Handler) (w : Writer) (r : Request) (s : World).




End Routes.








(** ** Discipline of spans *)




Example spans_disciplined_examples :
  spans_disciplined [] [SpanStart 0%nat None "a"] = false /\
  spans_disciplined [] [SpanStart 0%nat None "a"; SpanStart 1%nat (Some 0%nat) "b";
                        SpanEnd 0%nat; SpanEnd 1%nat] = false /\
  spans_disciplined [] [SpanStart 0%nat None "a"; SpanEnd 0%nat;
                        SpanSetAttributes 0%nat []] = false /\
  spans_disciplined [] [SpanStart 0%nat None "a"; LogInfo None "m" []; SpanEnd 0%nat]
    = false.
Proof. repeat (split; [reflexivity|]). reflexivity. Qed.

(** ** The counter by face *)

Lemma dice_total_at (v : Z) (w : Writer) (r : Request) (s : World) :
  counter_total_at "dice.rolls" "roll.value" v (events_of (dice w r) s)
  = if roll_of s =? v then 1 else 0.
Proof.
  rewrite dice_events. unfold counter_total_at.
  destruct (next_write s w); cbn; destruct (roll_of s =? v); reflexivity.
Qed.

Lemma rolled_cons (v : Z) (w : Writer) (r : Request) (s : World) (runs : list Execution) :
  Z.of_nat (rolled v ((w, r, s) :: runs))
  = (if roll_of s =? v then 1 else 0) + Z.of_nat (rolled v runs).
Proof.
  unfold rolled. cbn [filter]. destruct (roll_of s =? v); cbn [List.length]; lia.
Qed.

Lemma executions_total_at (v : Z) (runs : list Execution) :
  grand_total (incr_at "dice.rolls" "roll.value" v) (map execution_events runs)
  = Z.of_nat (rolled v runs).
Proof.
  induction runs as [|[[w r] s] runs IH]; [reflexivity|].
  rewrite rolled_cons, <- IH, <- (dice_total_at v w r s). reflexivity.
Qed.

Lemma rolled_faces (runs : list Execution) :
  (rolled 1 runs + rolled 2 runs + rolled 3 runs +
   rolled 4 runs + rolled 5 runs + rolled 6 runs)%nat = List.length runs.
Proof.
  induction runs as [|[[w r] s] runs IH]; [reflexivity|].
  apply Nat2Z.inj. rewrite !Nat2Z.inj_add, !rolled_cons.
  cbn [List.length]. rewrite <- IH, Nat2Z.inj_succ, !Nat2Z.inj_add.
  destruct (small_roll_cases _ (roll_range s)) as [E|[E|[E|[E|[E|E]]]]];
    rewrite E; cbn [Z.eqb Pos.eqb]; lia.
Qed.

(** X7.  However the traces of concurrent executions of [dice] are
    interleaved, the increments of dice.rolls under roll.value = v sum to
    the number of executions that rolled v, and the totals of the six faces
    sum to the number of executions. *)
Theorem dice_counter_by_face (runs : list Execution) (merged : list Event) :
  Interleave (map execution_events runs) merged ->
  (forall v : Z,
      counter_total_at "dice.rolls" "roll.value" v merged = Z.of_nat (rolled v runs)) /\
  counter_total_at "dice.rolls" "roll.value" 1 merged +
  counter_total_at "dice.rolls" "roll.value" 2 merged +
  counter_total_at "dice.rolls" "roll.value" 3 merged +
  counter_total_at "dice.rolls" "roll.value" 4 merged +
  counter_total_at "dice.rolls" "roll.value" 5 merged +
  counter_total_at "dice.rolls" "roll.value" 6 merged = Z.of_nat (List.length runs).
Proof.
  intros I.
  assert (F : forall v : Z,
             counter_total_at "dice.rolls" "roll.value" v merged
             = Z.of_nat (rolled v runs)).
  { intros v. unfold counter_total_at.
    rewrite (Interleave_total _ _ _ I). apply executions_total_at. }
  split; [exact F|].
  rewrite !F, <- (rolled_faces runs), !Nat2Z.inj_add. reflexivity.
Qed.

Lemma Interleave_left {A : Type} (l : list A) : Interleave [l; []] l.
Proof.
  induction l as [|x l IH].
  - apply Interleave_done. repeat constructor.
  - apply (Interleave_step [x :: l; []] 0%nat x l l eq_refl). exact IH.
Qed.

Lemma Interleave_right {A : Type} (l : list A) : Interleave [[]; l] l.
Proof.
  induction l as [|x l IH].
  - apply Interleave_done. repeat constructor.
  - apply (Interleave_step [[]; x :: l] 1%nat x l l eq_refl). exact IH.
Qed.

Lemma Interleave_alternate {A : Type} (l1 l2 : list A) :
  Interleave [l1; l2] (alternate l1 l2).
Proof.
  revert l2. induction l1 as [|x l1 IH]; intros l2.
  - apply Interleave_right.
  - destruct l2 as [|y l2]; [apply Interleave_left|].
    cbn [alternate].
    apply (Interleave_step [x :: l1; y :: l2] 0%nat x l1 _ eq_refl). cbn [replace_nth].
    apply (Interleave_step [l1; y :: l2] 1%nat y l2 _ eq_refl). cbn [replace_nth].
    apply IH.
Qed.

Lemma dice_counter_by_face_witness :
  Interleave
    (map execution_events
       [ (0%nat, plain_request "/dice" "", world0 10 []);
         (1%nat, plain_request "/dice" "", world0 3 [WritePanic "gone"]) ])
    (alternate
       (execution_events (0%nat, plain_request "/dice" "", world0 10 []))
       (execution_events (1%nat, plain_request "/dice" "", world0 3 [WritePanic "gone"])))
  /\
  counter_total_at "dice.rolls" "roll.value" 5
    (alternate
       (execution_events (0%nat, plain_request "/dice" "", world0 10 []))
       (execution_events (1%nat, plain_request "/dice" "", world0 3 [WritePanic "gone"])))
  = 1.
Proof.
  split; [apply Interleave_alternate|].
  exact (proj1 (dice_counter_by_face
                  [ (0%nat, plain_request "/dice" "", world0 10 []);
                    (1%nat, plain_request "/dice" "", world0 3 [WritePanic "gone"]) ]
                  _ (Interleave_alternate _ _)) 5).
Defined.

(** ** The exit of the process *)


(** ** Deferred calls of [run] *)

(** X9.  The deferred calls of [run] run in reverse order: once the
    bundle is set up, every run ends with the telemetry shutdown, called
    once, followed by [stop]; when the setup fails the process exits and
    [stop] is never called. *)
Theorem run_deferred_order (s : World) :
  match otel_setup_err s with
  | Some _ =>
      ~ In SignalStop (events_of run s) /\ outcome_of run s = Exit 1
  | None =>
      exists pre : list Event,
        events_of run s = (pre ++ [OtelShutdown (otel_shutdown_err s); SignalStop])%list /\
        otel_shutdowns pre = []
  end.
Proof.
  destruct (otel_setup_err s) as [e|] eqn:F.
  - destruct (run_setup_failure s e F) as [O ->]. split; [|exact O].
    cbn. intros [H|[H|[H|[]]]]; discriminate.
  - destruct (wakeup s) as [e|] eqn:W.
    + destruct (run_server_fault s e F W) as [_ ->].
      exists [ SignalNotify; SetupOTelSDK None; DefaultMuxHandle "/";
               ServerCreated ":8080"; GoListenAndServe ].
      split; reflexivity.
    + destruct (run_interrupt s F W) as [_ ->].
      exists [ SignalNotify; SetupOTelSDK None; DefaultMuxHandle "/";
               ServerCreated ":8080"; GoListenAndServe; SignalStop;
               SrvShutdown (srv_shutdown_err s) ].
      split; reflexivity.
Qed.

(** ** How [dice] ends *)

(** X10.  [dice] returns normally when the write succeeds or returns an
    error, and panics with the writer's value when the writer panics; it
    writes to the standard logger only when the write returns an error. *)
Theorem dice_exits (w : Writer) (r : Request) (s : World) :
  outcome_of (dice w r) s =
    match next_write s w with
    | WritePanic v => Panic v
    | _ => Ret tt
    end /\
  std_log_lines (events_of (dice w r) s) =
    match next_write s w with
    | WriteErr _ e => ["Escritura fallida: " ++ Error e ++ LF]
    | _ => []
    end.
Proof.
  split; [apply dice_outcome|].
  rewrite dice_events. destruct (next_write s w); reflexivity.
Qed.

(** ** The message of [dice] *)

(** X5.  [dice] logs exactly one record: for a request with a non-empty
    path value "player" its message is that value followed by " is rolling
    the dice", and otherwise it is the anonymous message. *)
Theorem dice_names_player (w : Writer) (r : Request) (s : World) :
  (PathValue r "player" <> "" ->
   log_messages (events_of (dice w r) s)
     = [PathValue r "player" ++ " is rolling the dice"]) /\
  (PathValue r "player" = "" ->
   log_messages (events_of (dice w r) s) = ["Anonymous player is rolling the dice"]).
Proof.
  rewrite dice_log_message. split; intros H.
  - rewrite (dice_msg_player r _ eq_refl H). reflexivity.
  - rewrite (dice_msg_anonymous r H). reflexivity.
Qed.

Lemma dice_names_player_witness :
  (PathValue (SetPathValues (plain_request "/dice/Alice" "") [("player", "Alice")])
             "player" <> "" /\
   log_messages (events_of
       (dice 0%nat (SetPathValues (plain_request "/dice/Alice" "") [("player", "Alice")]))
       (world0 10 []))
     = ["Alice is rolling the dice"]) /\
  (PathValue (plain_request "/dice" "player=Alice") "player" = "" /\
   log_messages (events_of (dice 0%nat (plain_request "/dice" "player=Alice"))
                           (world0 10 []))
     = ["Anonymous player is rolling the dice"]).
Proof.
  split.
  - assert (NE : PathValue (SetPathValues (plain_request "/dice/Alice" "")
                              [("player", "Alice")]) "player" <> "")
      by (vm_compute; discriminate).
    split; [exact NE|].
    exact (proj1 (dice_names_player 0%nat
                    (SetPathValues (plain_request "/dice/Alice" "") [("player", "Alice")])
                    (world0 10 [])) NE).
  - split; [reflexivity|].
    exact (proj2 (dice_names_player 0%nat (plain_request "/dice" "player=Alice")
                    (world0 10 [])) eq_refl).
Defined.

Lemma served_dice_is_anonymous_witness :
  URL_Path (plain_request "/dice" "player=Alice") = "/dice" /\
  PathValue (plain_request "/dice" "player=Alice") "player" = "" /\
  log_messages (events_of (Server_serve srv 0%nat (plain_request "/dice" "player=Alice"))
                          (world0 10 [WriteErr 0 (errorString "broken pipe")]))
    = ["Anonymous player is rolling the dice"].
Proof.
  split; [reflexivity|]. split; [reflexivity|].
  exact (served_dice_is_anonymous 0%nat (plain_request "/dice" "player=Alice")
           (world0 10 [WriteErr 0 (errorString "broken pipe")]) eq_refl eq_refl).
Defined.

(** ** The greeting *)







(** ** The route tag *)


(** ** A server that cannot serve *)

(** X12.  When serving ends with a server error, the telemetry bundle is
    shut down, [stop] is called, and the process logs "Error: " followed by
    the server's error, and by the telemetry shutdown's error on a line of
    its own if there is one, and exits with status 1. *)
Theorem main_reports_server_fault (s : World) (e : error) :
  otel_setup_err s = None -> wakeup s = ServerFault e ->
  outcome_of main s = Exit 1 /\
  events_of main s =
    [ SignalNotify; SetupOTelSDK None; DefaultMuxHandle "/"; ServerCreated ":8080";
      GoListenAndServe; OtelShutdown (otel_shutdown_err s); SignalStop;
      StdLog (log_line ("Error: " ++
                        match otel_shutdown_err s with
                        | None => Error e
                        | Some e' => Error e ++ LF ++ Error e'
                        end)) ].
Proof.
  intros F W. run_lifecycle. rewrite F. cbn. rewrite W. cbn.
  destruct (otel_shutdown_err s) as [e'|]; cbn;
    (split; [reflexivity|]); rewrite <- !app_assoc; apply skipn_app_length.
Qed.

Lemma main_reports_server_fault_witness :
  otel_setup_err (with_env None None None
                    (ServerFault (errorString "listen tcp :8080: address in use"))) = None /\
  wakeup (with_env None None None
            (ServerFault (errorString "listen tcp :8080: address in use")))
    = ServerFault (errorString "listen tcp :8080: address in use") /\
  std_log_lines (events_of main
       (with_env None None None
          (ServerFault (errorString "listen tcp :8080: address in use"))))
    = ["Error: listen tcp :8080: address in use" ++ LF].
Proof.
  split; [reflexivity|]. split; [reflexivity|].
  destruct (main_reports_server_fault
              (with_env None None None
                 (ServerFault (errorString "listen tcp :8080: address in use")))
              (errorString "listen tcp :8080: address in use") eq_refl eq_refl) as [_ E].
  rewrite E. vm_compute. reflexivity.
Defined.
